(** * remove_coordinates.py: blanking the geometry of GeoJSON features

    A shallow embedding of [scripts/remove_coordinates.py].  The script
    loads a JSON document, sets the [geometry] entry of every feature to
    [None], stores the feature list back under [features] and dumps the
    document next to the input file.

    Python values are modelled as the trees [json.load] builds; exceptions
    are explicit results; the file system and the console are threaded
    through the script as explicit state. *)

From Stdlib Require Import PrimFloat Ascii.
From stdpp Require Import base option list strings gmap pretty.

Set Warnings "-register-all".

Local Open Scope string_scope.
Local Open Scope list_scope.

(** ** Python values produced by [json.load] *)

(** A dict is kept as the list of its items in insertion order, which is
    the order [json.dump] writes them in.  [json.load] builds a tree: no
    mutable object is reachable along two paths, so updating a feature in
    place is the same as rebuilding the tree around the new feature. *)
Inductive pyval : Type :=
| PNone
| PBool (b : bool)
| PInt (z : Z)
| PFloat (x : float)
| PStr (s : string)
| PList (items : list pyval)
| PDict (items : list (string * pyval)).

Inductive exn : Type :=
| AttributeError
| TypeError
| IndexError
| FileNotFoundError
| IsADirectoryError
| JSONDecodeError
| UnicodeDecodeError
| RecursionError
| ValueError.

(** ** Results of operations that may raise *)

Inductive result (A : Type) : Type :=
| Ok (a : A)
| Raise (e : exn).
Arguments Ok {A} a.
Arguments Raise {A} e.

#[global] Instance result_ret : MRet result := @Ok.

#[global] Instance result_bind : MBind result := fun A B k r =>
  match r with
  | Ok a => k a
  | Raise e => Raise e
  end.

Definition is_ok {A} (r : result A) : bool :=
  match r with Ok _ => true | Raise _ => false end.

(** ** Dict operations *)

Module Dict.

Definition t := list (string * pyval).

(** [k in d] *)
Fixpoint mem (k : string) (d : t) : bool :=
  match d with
  | [] => false
  | (k', _) :: d' => if String.eqb k' k then true else mem k d'
  end.

(** [d.get(k)], [None] when the key is absent *)
Fixpoint get (k : string) (d : t) : option pyval :=
  match d with
  | [] => None
  | (k', v) :: d' => if String.eqb k' k then Some v else get k d'
  end.

(** [d[k] = v]: an existing key keeps its position, a new key is
    appended. *)
Fixpoint set (k : string) (v : pyval) (d : t) : t :=
  match d with
  | [] => [(k, v)]
  | (k', v') :: d' =>
      if String.eqb k' k then (k', v) :: d' else (k', v') :: set k v d'
  end.

Definition keys (d : t) : list string := map fst d.

End Dict.

(** ** The operations of Python the loop uses, on every kind of value *)

(** [needle in s] for two strs: substring test. *)
Fixpoint str_contains (needle s : string) : bool :=
  if String.prefix needle s then true
  else match s with
       | EmptyString => false
       | String _ s' => str_contains needle s'
       end.

(** The one-character strs iterating over a str yields. *)
Fixpoint str_chars (s : string) : list string :=
  match s with
  | EmptyString => []
  | String c s' => String c EmptyString :: str_chars s'
  end.

(** [v == k] for a str [k]: only an equal str compares equal. *)
Definition eq_str (k : string) (v : pyval) : bool :=
  match v with
  | PStr s => String.eqb s k
  | _ => false
  end.

(** [data.get(k, dflt)]: only dicts have a [get] method. *)
Definition py_get (data : pyval) (k : string) (dflt : pyval) : result pyval :=
  match data with
  | PDict d => Ok (default dflt (Dict.get k d))
  | _ => Raise AttributeError
  end.

(** [for x in v]: the objects the iteration yields. *)
Definition py_iter (v : pyval) : result (list pyval) :=
  match v with
  | PList l => Ok l
  | PDict d => Ok (map PStr (Dict.keys d))
  | PStr s => Ok (map PStr (str_chars s))
  | _ => Raise TypeError
  end.

(** [k in v] *)
Definition py_contains (k : string) (v : pyval) : result bool :=
  match v with
  | PDict d => Ok (Dict.mem k d)
  | PList l => Ok (existsb (eq_str k) l)
  | PStr s => Ok (str_contains k s)
  | _ => Raise TypeError
  end.

(** [v[k] = x] for a str [k]: lists want integer indices, strs are
    immutable, the other values are not subscriptable. *)
Definition py_setitem (v : pyval) (k : string) (x : pyval) : result pyval :=
  match v with
  | PDict d => Ok (PDict (Dict.set k x d))
  | _ => Raise TypeError
  end.

(** ** The feature loop (lines 29-38) *)

(** One iteration: the feature after the body, and the new counter. *)
Definition strip_feature (feature : pyval) (features_processed : nat)
  : result (pyval * nat) :=
  has ← py_contains "geometry" feature;
  if has : bool then
    feature' ← py_setitem feature "geometry" PNone;
    Ok (feature', S features_processed)
  else Ok (feature, features_processed).

(** The whole loop over the objects the iteration yields. *)
Fixpoint strip_loop (features : list pyval) (features_processed : nat)
  : result (list pyval * nat) :=
  match features with
  | [] => Ok ([], features_processed)
  | feature :: rest =>
      '(feature', n) ← strip_feature feature features_processed;
      '(rest', n') ← strip_loop rest n;
      Ok (feature' :: rest', n')
  end.

(** The value of [features] after the loop.  A list holds the objects the
    loop updated; the strs a dict or a str yields are immutable, so those
    containers are as before. *)
Definition after_loop (features : pyval) (items' : list pyval) : pyval :=
  match features with
  | PList _ => PList items'
  | _ => features
  end.

(** Lines 29-38: the document and [features_processed] after the loop. *)
Definition strip (data : pyval) : result (pyval * nat) :=
  features ← py_get data "features" (PList []);
  items ← py_iter features;
  '(items', features_processed) ← strip_loop items 0;
  data' ← py_setitem data "features" (after_loop features items');
  Ok (data', features_processed).

(** ** The data model of the specification *)

Definition is_dict (v : pyval) : bool :=
  match v with PDict _ => true | _ => false end.

(** A document is a mapping whose [features] entry, when there is one, is
    a sequence of mappings. *)
Definition conforms (data : pyval) : bool :=
  match data with
  | PDict d =>
      match Dict.get "features" d with
      | None => true
      | Some (PList fs) => forallb is_dict fs
      | Some _ => false
      end
  | _ => false
  end.

(** The feature sequence of a document; empty when there is none. *)
Definition features_of (data : pyval) : list pyval :=
  match data with
  | PDict d =>
      match Dict.get "features" d with
      | Some (PList fs) => fs
      | _ => []
      end
  | _ => []
  end.

(** The feature is a mapping with a [geometry] key. *)
Definition has_geometry (feature : pyval) : bool :=
  match feature with
  | PDict d => Dict.mem "geometry" d
  | _ => false
  end.

(** The number of features with a [geometry] key. *)
Definition with_geometry (fs : list pyval) : nat :=
  length (List.filter has_geometry fs).

(** The loop body as a function on the feature alone. *)
Definition blank (feature : pyval) : pyval :=
  match feature with
  | PDict d =>
      if Dict.mem "geometry" d then PDict (Dict.set "geometry" PNone d)
      else feature
  | _ => feature
  end.

(** The loop body does not raise on this object. *)
Definition tolerated (feature : pyval) : bool :=
  match feature with
  | PDict _ => true
  | PList l => negb (existsb (eq_str "geometry") l)
  | PStr s => negb (str_contains "geometry" s)
  | _ => false
  end.

(** The items of a dict other than those under key [k], in order. *)
Definition others (k : string) (d : Dict.t) : Dict.t :=
  List.filter (fun kv => negb (String.eqb (fst kv) k)) d.

(** The document of the specification's end-to-end scenario. *)
Definition scenario_features : list pyval :=
  [PDict
     [("type", PStr "Feature");
      ("geometry",
        PDict [("type", PStr "Point");
               ("coordinates", PList [PInt 1; PInt 2])]);
      ("properties", PDict [("name", PStr "A")])];
   PDict
     [("type", PStr "Feature");
      ("properties", PDict [("name", PStr "B")])]].

Definition scenario_items : Dict.t :=
  [("type", PStr "FeatureCollection");
   ("features", PList scenario_features)].

Definition scenario : pyval := PDict scenario_items.

Definition scenario_stripped : pyval :=
  PDict
    [("type", PStr "FeatureCollection");
     ("features",
       PList
         [PDict
            [("type", PStr "Feature");
             ("geometry", PNone);
             ("properties", PDict [("name", PStr "A")])];
          PDict
            [("type", PStr "Feature");
             ("properties", PDict [("name", PStr "B")])]])].

(** ** The surroundings of the script *)

(** [os.path] on POSIX. *)
Module Path.

Definition is_sep (c : ascii) : bool := Ascii.eqb c "/"%char.

(** [p[:p.rfind('/') + 1]] *)
Fixpoint upto_last_sep (p : string) : string :=
  match p with
  | EmptyString => EmptyString
  | String c p' =>
      match upto_last_sep p' with
      | EmptyString => if is_sep c then String c EmptyString else EmptyString
      | head => String c head
      end
  end.

(** [s.rstrip('/')] *)
Fixpoint rstrip_sep (s : string) : string :=
  match s with
  | EmptyString => EmptyString
  | String c s' =>
      match rstrip_sep s' with
      | EmptyString => if is_sep c then EmptyString else String c EmptyString
      | r => String c r
      end
  end.

(** [s == '/' * len(s)] *)
Fixpoint all_sep (s : string) : bool :=
  match s with
  | EmptyString => true
  | String c s' => is_sep c && all_sep s'
  end.

(** [s.endswith('/')] *)
Fixpoint ends_with_sep (s : string) : bool :=
  match s with
  | EmptyString => false
  | String c EmptyString => is_sep c
  | String _ s' => ends_with_sep s'
  end.

Definition nonempty (s : string) : bool :=
  match s with EmptyString => false | String _ _ => true end.

(** [os.path.dirname(p)] *)
Definition dirname (p : string) : string :=
  let head := upto_last_sep p in
  if nonempty head && negb (all_sep head) then rstrip_sep head else head.

(** [os.path.join(a, b)] *)
Definition join (a b : string) : string :=
  if String.prefix "/" b then b
  else if negb (nonempty a) || ends_with_sep a then a ++ b
  else a ++ "/" ++ b.

End Path.

(** What a path names. *)
Inductive node : Type :=
| File (text : string)
| Directory.

(** The file system, each file under its own name (the path its
    spellings resolve to), and the lines printed so far. *)
Record world : Type := World {
  files : gmap string node;
  stdout : list string
}.

(** How the process ends: [sys.exit(status)], or an exception nobody
    catches, which the interpreter turns into status 1. *)
Inductive stop : Type :=
| Exit (status : Z)
| Uncaught (e : exn).

Definition exit_status (s : stop) : Z :=
  match s with
  | Exit status => status
  | Uncaught _ => 1
  end.

(** A piece of the script: it runs on a world and either stops the process
    or goes on with a value. *)
Definition script (A : Type) : Type := world -> (stop + A) * world.

#[global] Instance script_ret : MRet script := fun A a w => (inr a, w).

#[global] Instance script_bind : MBind script := fun A B k m w =>
  match m w with
  | (inl s, w') => (inl s, w')
  | (inr a, w') => k a w'
  end.

Definition sys_exit {A} (status : Z) : script A :=
  fun w => (inl (Exit status), w).

Definition throw {A} (e : exn) : script A :=
  fun w => (inl (Uncaught e), w).

Definition lift {A} (r : result A) : script A :=
  match r with
  | Ok a => mret a
  | Raise e => throw e
  end.

Definition print (line : string) : script unit :=
  fun w => (inr (), World (files w) (stdout w ++ [line])).

(** [l[i]] *)
Definition py_index (l : list string) (i : nat) : result string :=
  match l !! i with
  | Some x => Ok x
  | None => Raise IndexError
  end.

Definition default_path : string := "data/Raw_Demographic_Data.geojson".

Definition output_name : string := "Cleaned_Demographics_Data.geojson".

(** Lines 41-42. *)
Definition output_file_path (file_path : string) : string :=
  let d := Path.dirname file_path in
  let input_dir := if Path.nonempty d then d else "." in
  Path.join input_dir output_name.

Section Script.

(** The file a path names: what the operating system resolves the
    spelling to from the current directory.  Two spellings of one file,
    such as [x] and [./x], resolve alike. *)
Variable resolve : string -> string.

(** [json.load] on an open file, as a function of the bytes the file
    holds: the document, or the exception it raises ([JSONDecodeError],
    [UnicodeDecodeError], [RecursionError], ...); and [json.dump]. *)
Variable json_load : string -> result pyval.
Variable json_dump : pyval -> string.

(** [os.path.exists(p)] *)
Definition os_path_exists (p : string) : script bool :=
  fun w => (inr (bool_decide (is_Some (files w !! resolve p))), w).

(** [open(p, 'r')]: the bytes of the file. *)
Definition read_text (p : string) : script string :=
  fun w =>
    match files w !! resolve p with
    | Some (File text) => (inr text, w)
    | Some Directory => (inl (Uncaught IsADirectoryError), w)
    | None => (inl (Uncaught FileNotFoundError), w)
    end.

(** [open(p, 'w')] and writing [text]: the file the path names is
    created, or truncated and rewritten.  The script only writes into the
    directory of a file it has just read, so the directory is there. *)
Definition write_text (p text : string) : script unit :=
  fun w =>
    match files w !! resolve p with
    | Some Directory => (inl (Uncaught IsADirectoryError), w)
    | _ => (inr (), World (<[resolve p := File text]> (files w)) (stdout w))
    end.

(** Lines 6-16. *)
Definition input_path (argv : list string) : script string :=
  if Nat.ltb 1 (length argv) then lift (py_index argv 1)
  else
    found ← os_path_exists default_path;
    if found : bool then
      print ("Using default file: " ++ default_path);;
      mret default_path
    else
      print "Error: Please provide a GeoJSON file path";;
      prog ← lift (py_index argv 0);
      print ("Usage: python " ++ prog ++ " data/Raw_Demographic_Data.geojson");;
      sys_exit 1.

(** Lines 19-49. *)
Definition process (file_path : string) : script unit :=
  found ← os_path_exists file_path;
  (if negb found then
     print ("Error: File not found: " ++ file_path);;
     sys_exit 1
   else mret ());;
  print ("Loading GeoJSON file: " ++ file_path);;
  text ← read_text file_path;
  data ← lift (json_load text);
  '(data', features_processed) ← lift (strip data);
  print ("Removing coordinates from " ++ pretty features_processed
         ++ " features...");;
  write_text (output_file_path file_path) (json_dump data');;
  print ("GeoJSON without coordinates saved to: "
         ++ output_file_path file_path);;
  sys_exit 0.

Definition main (argv : list string) : script unit :=
  file_path ← input_path argv;
  process file_path.

(** The whole process: how it ends and the world it leaves. *)
Definition run (argv : list string) (w : world) : stop * world :=
  match main argv w with
  | (inl s, w') => (s, w')
  | (inr _, w') => (Exit 0, w')
  end.

End Script.

(** Whether the input file the script settles on is missing. *)
Definition input_missing (resolve : string -> string)
    (argv : list string) (w : world) : bool :=
  match argv with
  | _ :: file_path :: _ => bool_decide (files w !! resolve file_path = None)
  | _ => bool_decide (files w !! resolve default_path = None)
  end.

(** A run to try the script on: one input file, whose text a toy
    [json.load] reads as the scenario document; paths are resolved by
    dropping a leading [./]. *)
Definition toy_resolve (p : string) : string :=
  match p with
  | String "."%char (String "/"%char q) => q
  | _ => p
  end.

Definition toy_load (text : string) : result pyval :=
  if String.eqb text "scenario" then Ok scenario
  else Raise JSONDecodeError.

Definition toy_dump (data : pyval) : string :=
  "features: " ++ pretty (length (features_of data)).

Definition toy_world : world :=
  World {[ "data/in.geojson" := File "scenario" ]} [].

Definition toy_argv : list string :=
  ["remove_coordinates.py"; "data/in.geojson"].

(** A toy [json.load] that reads back what the toy [json.dump] wrote. *)
Definition echo_load (text : string) : result pyval :=
  if String.eqb text "scenario" then Ok scenario
  else if String.eqb text "stripped" then Ok scenario_stripped
  else Raise JSONDecodeError.

Definition echo_dump (data : pyval) : string :=
  if Nat.eqb (with_geometry (features_of data)) 0 then "empty" else "stripped".

(** A directory as [os.path.dirname] returns it, or [.]: not empty, and
    without a trailing separator unless it is all separators. *)
Definition tidy (dir : string) : Prop :=
  Path.nonempty dir = true /\
  (Path.ends_with_sep dir = true -> Path.all_sep dir = true).

(** The name holds no separator. *)
Definition plain_name (name : string) : Prop :=
  Path.upto_last_sep name = "" /\ String.prefix "/" name = false.

(** [None], a bool or a number: the values that are neither iterable nor
    containers. *)
Definition is_scalar (v : pyval) : bool :=
  match v with
  | PNone | PBool _ | PInt _ | PFloat _ => true
  | _ => false
  end.

(** * Properties *)

(** ** Concrete runs of the loop *)

Example strip_scenario : strip scenario = Ok (scenario_stripped, 1).
Proof. reflexivity. Qed.

Example strip_empty_features :
  strip (PDict [("features", PList [])]) = Ok (PDict [("features", PList [])], 0).
Proof. reflexivity. Qed.

Example strip_not_a_dict : strip (PList []) = Raise AttributeError.
Proof. reflexivity. Qed.

Example strip_features_number :
  strip (PDict [("features", PInt 3)]) = Raise TypeError.
Proof. reflexivity. Qed.

Example strip_feature_number :
  strip (PDict [("features", PList [PInt 3])]) = Raise TypeError.
Proof. reflexivity. Qed.

Example strip_feature_list :
  strip (PDict [("features", PList [PList [PStr "geometry"]])]) = Raise TypeError.
Proof. reflexivity. Qed.

Example strip_features_str :
  strip (PDict [("features", PStr "ab")]) = Ok (PDict [("features", PStr "ab")], 0).
Proof. reflexivity. Qed.

Example dirname_nested : Path.dirname "data/in/x.geojson" = "data/in".
Proof. reflexivity. Qed.

Example dirname_root : Path.dirname "/x.geojson" = "/".
Proof. reflexivity. Qed.

Example output_path_nested :
  output_file_path "data/x.geojson" = "data/Cleaned_Demographics_Data.geojson".
Proof. reflexivity. Qed.

Example output_path_bare :
  output_file_path "x.geojson" = "./Cleaned_Demographics_Data.geojson".
Proof. reflexivity. Qed.

(** ** Dicts *)

Module DictFacts.
Import Dict.

Lemma mem_get k d : mem k d = bool_decide (is_Some (get k d)).
Proof.
  induction d as [|[k' v'] d IH]; simpl; [done|].
  destruct (String.eqb_spec k' k) as [->|?]; [done|apply IH].
Qed.

Lemma get_none_mem k d : get k d = None -> mem k d = false.
Proof. rewrite mem_get. intros ->. done. Qed.

Lemma mem_set_eq k v d : mem k (set k v d) = true.
Proof.
  induction d as [|[k' v'] d IH]; simpl.
  - by rewrite String.eqb_refl.
  - destruct (String.eqb_spec k' k) as [->|Hne]; simpl.
    + by rewrite String.eqb_refl.
    + destruct (String.eqb_spec k' k); [done|apply IH].
Qed.

Lemma get_set_eq k v d : get k (set k v d) = Some v.
Proof.
  induction d as [|[k' v'] d IH]; simpl.
  - by rewrite String.eqb_refl.
  - destruct (String.eqb_spec k' k) as [->|Hne]; simpl.
    + by rewrite String.eqb_refl.
    + destruct (String.eqb_spec k' k); [done|apply IH].
Qed.

Lemma get_set_ne k k0 v d : k0 <> k -> get k0 (set k v d) = get k0 d.
Proof.
  intros Hne. induction d as [|[k' v'] d IH]; simpl.
  - destruct (String.eqb_spec k k0); [congruence|done].
  - destruct (String.eqb_spec k' k) as [->|Hk]; simpl.
    + destruct (String.eqb_spec k k0); [congruence|done].
    + destruct (String.eqb_spec k' k0); [done|apply IH].
Qed.

Lemma mem_set_ne k k0 v d : k0 <> k -> mem k0 (set k v d) = mem k0 d.
Proof. intros Hne. by rewrite !mem_get, get_set_ne. Qed.

Lemma keys_set k v d : mem k d = true -> keys (set k v d) = keys d.
Proof.
  unfold keys. induction d as [|[k' v'] d IH]; simpl; [done|].
  destruct (String.eqb_spec k' k) as [->|Hk]; simpl; [done|].
  intros Hm. by rewrite IH.
Qed.

Lemma set_absent k v d : get k d = None -> set k v d = d ++ [(k, v)].
Proof.
  induction d as [|[k' v'] d IH]; simpl; [done|].
  destruct (String.eqb_spec k' k) as [->|Hk]; [done|].
  intros Hg. by rewrite IH.
Qed.

Lemma set_set k v v0 d : set k v (set k v0 d) = set k v d.
Proof.
  induction d as [|[k' v'] d IH]; simpl.
  - by rewrite String.eqb_refl.
  - destruct (String.eqb_spec k' k) as [->|Hk]; simpl.
    + by rewrite String.eqb_refl.
    + destruct (String.eqb_spec k' k); [done|]. by rewrite IH.
Qed.

End DictFacts.

Lemma others_set k v d : others k (Dict.set k v d) = others k d.
Proof.
  unfold others. induction d as [|[k' v'] d IH]; simpl.
  - by rewrite String.eqb_refl.
  - destruct (String.eqb_spec k' k) as [->|Hk]; simpl.
    + by rewrite String.eqb_refl.
    + destruct (String.eqb_spec k' k); [done|]. simpl. by rewrite IH.
Qed.

(** ** The loop *)

Lemma blank_idem f : blank (blank f) = blank f.
Proof.
  destruct f as [| | | | | |d]; simpl; try done.
  destruct (Dict.mem "geometry" d) eqn:Hm; simpl; [|by rewrite Hm].
  by rewrite DictFacts.mem_set_eq, DictFacts.set_set.
Qed.

Lemma has_geometry_blank f : has_geometry (blank f) = has_geometry f.
Proof.
  destruct f as [| | | | | |d]; simpl; try done.
  destruct (Dict.mem "geometry" d) eqn:Hm; simpl; [|done].
  apply DictFacts.mem_set_eq.
Qed.

Lemma tolerated_blank f : tolerated (blank f) = tolerated f.
Proof.
  destruct f as [| | | | | |d]; simpl; try done.
  by destruct (Dict.mem "geometry" d).
Qed.

Lemma is_dict_tolerated f : is_dict f = true -> tolerated f = true.
Proof. by destruct f. Qed.

(** One iteration, on every kind of object. *)
Lemma strip_feature_eq f n :
  strip_feature f n =
    if tolerated f
    then Ok (blank f, if has_geometry f then S n else n)
    else Raise TypeError.
Proof.
  unfold strip_feature.
  destruct f as [| | | | s |l|d]; simpl; try done.
  - by destruct (str_contains "geometry" s).
  - by destruct (existsb (eq_str "geometry") l).
  - by destruct (Dict.mem "geometry" d).
Qed.

(** The whole loop, on every sequence of objects. *)
Lemma strip_loop_eq fs n :
  strip_loop fs n =
    if forallb tolerated fs
    then Ok (map blank fs, n + with_geometry fs)
    else Raise TypeError.
Proof.
  revert n. induction fs as [|f fs IH]; intros n; simpl.
  - unfold with_geometry. simpl. by rewrite Nat.add_0_r.
  - rewrite strip_feature_eq.
    destruct (tolerated f); simpl; [|done].
    rewrite IH. destruct (forallb tolerated fs); simpl; [|done].
    unfold with_geometry. simpl.
    destruct (has_geometry f); simpl; do 2 f_equal; lia.
Qed.

Lemma forallb_tolerated_blank fs :
  forallb tolerated (map blank fs) = forallb tolerated fs.
Proof.
  induction fs as [|f fs IH]; simpl; [done|].
  by rewrite tolerated_blank, IH.
Qed.

Lemma with_geometry_blank fs : with_geometry (map blank fs) = with_geometry fs.
Proof.
  unfold with_geometry. induction fs as [|f fs IH]; simpl; [done|].
  rewrite has_geometry_blank. destruct (has_geometry f); simpl; by rewrite IH.
Qed.

Lemma map_blank_idem fs : map blank (map blank fs) = map blank fs.
Proof.
  induction fs as [|f fs IH]; simpl; [done|]. by rewrite blank_idem, IH.
Qed.

Lemma forallb_is_dict_tolerated fs :
  forallb is_dict fs = true -> forallb tolerated fs = true.
Proof.
  induction fs as [|f fs IH]; simpl; [done|].
  intros [Hf Hfs]%andb_prop. by rewrite is_dict_tolerated, IH.
Qed.

(** ** The document *)

(** [strip] on every dict. *)
Lemma strip_eq d :
  strip (PDict d) =
    let features := default (PList []) (Dict.get "features" d) in
    match py_iter features with
    | Raise e => Raise e
    | Ok items =>
        if forallb tolerated items
        then Ok (PDict (Dict.set "features"
                          (after_loop features (map blank items)) d),
                 with_geometry items)
        else Raise TypeError
    end.
Proof.
  unfold strip. simpl.
  destruct (py_iter (default (PList []) (Dict.get "features" d))) as [items|e];
    simpl; [|done].
  rewrite strip_loop_eq. by destruct (forallb tolerated items).
Qed.

(** [strip] on the documents of the data model. *)
Lemma strip_conforms data :
  conforms data = true ->
  exists d,
    data = PDict d /\
    strip data =
      Ok (PDict (Dict.set "features"
                   (PList (map blank (features_of data))) d),
          with_geometry (features_of data)).
Proof.
  destruct data as [| | | | | |d]; simpl; try done.
  intros Hc. exists d. split; [done|]. rewrite strip_eq.
  destruct (Dict.get "features" d) as [[| | | | | fs |]|]; simpl in *; try done.
  by rewrite forallb_is_dict_tolerated.
Qed.

Lemma features_of_set d fs :
  features_of (PDict (Dict.set "features" (PList fs) d)) = fs.
Proof. simpl. by rewrite DictFacts.get_set_eq. Qed.

Lemma conforms_feature data i f :
  conforms data = true -> features_of data !! i = Some f -> is_dict f = true.
Proof.
  destruct data as [| | | | | |d]; simpl; try done.
  destruct (Dict.get "features" d) as [[| | | | | fs |]|]; simpl; try done.
  intros Hall Hi. rewrite forallb_forall in Hall.
  apply Hall, list_elem_of_In, list_elem_of_lookup. eauto.
Qed.

(** A second pass over the result of a first one changes nothing, for
    every document the first pass completes on. *)
Lemma strip_again data data' n :
  strip data = Ok (data', n) -> strip data' = Ok (data', n).
Proof.
  destruct data as [| | | | | |d]; try done.
  rewrite strip_eq. cbv zeta.
  set (features := default (PList []) (Dict.get "features" d)).
  destruct (py_iter features) as [items|e] eqn:Hiter; [|done].
  destruct (forallb tolerated items) eqn:Htol; [|done].
  intros [= <- <-]. rewrite strip_eq, DictFacts.get_set_eq. simpl.
  destruct features as [| | | | s |l|fd]; simpl in Hiter; try done;
    injection Hiter as <-; simpl.
  - rewrite Htol. by rewrite DictFacts.set_set.
  - rewrite forallb_tolerated_blank, Htol, map_blank_idem.
    by rewrite with_geometry_blank, DictFacts.set_set.
  - rewrite Htol. by rewrite DictFacts.set_set.
Qed.

(** ** The claims about the loop *)

(** C1: for a document whose [features] entry is a sequence of features,
    [strip] returns as [features_processed] the number of those features
    that have a [geometry] key; the others are not counted. *)
Theorem strip_counts_geometry d fs :
  Dict.get "features" d = Some (PList fs) ->
  forallb is_dict fs = true ->
  exists data',
    strip (PDict d) = Ok (data', length (List.filter has_geometry fs)).
Proof.
  intros Hget Hall.
  destruct (strip_conforms (PDict d)) as (d' & [= <-] & Hs).
  { simpl. by rewrite Hget. }
  simpl in Hs. rewrite Hget in Hs. eauto.
Qed.

Lemma strip_counts_geometry_witness :
  Dict.get "features" scenario_items = Some (PList scenario_features) /\
  forallb is_dict scenario_features = true /\
  exists data',
    strip (PDict scenario_items) =
      Ok (data', length (List.filter has_geometry scenario_features)).
Proof.
  split; [reflexivity|]. split; [reflexivity|].
  apply (strip_counts_geometry scenario_items scenario_features); reflexivity.
Defined.

(** C2: the feature sequence of the stripped document is as long as that
    of the document, and its i-th feature is the i-th feature of the
    document after the loop body. *)
Theorem strip_keeps_sequence data :
  conforms data = true ->
  exists data' n,
    strip data = Ok (data', n) /\
    length (features_of data') = length (features_of data) /\
    forall i, features_of data' !! i = blank <$> features_of data !! i.
Proof.
  intros Hc. destruct (strip_conforms data Hc) as (d & -> & Hs).
  eexists _, _. split; [exact Hs|]. rewrite features_of_set.
  split; [apply length_map|].
  intros i. apply (list_lookup_fmap blank).
Qed.

Lemma strip_keeps_sequence_witness :
  conforms scenario = true /\
  exists data' n,
    strip scenario = Ok (data', n) /\
    length (features_of data') = length (features_of scenario) /\
    forall i, features_of data' !! i = blank <$> features_of scenario !! i.
Proof.
  split; [reflexivity|]. apply (strip_keeps_sequence scenario). reflexivity.
Defined.

(** C3: [strip] is idempotent: on the document and the count a first pass
    returns, a second pass returns the same document and the same count,
    the features whose [geometry] is already [None] still having the key
    and being counted. *)
Theorem strip_idempotent data :
  conforms data = true ->
  exists data' n,
    strip data = Ok (data', n) /\
    strip data' = Ok (data', n) /\
    n = with_geometry (features_of data) /\
    n = with_geometry (features_of data').
Proof.
  intros Hc. destruct (strip_conforms data Hc) as (d & -> & Hs).
  eexists _, _. split; [exact Hs|].
  split; [by apply strip_again in Hs|]. split; [done|].
  by rewrite features_of_set, with_geometry_blank.
Qed.

Lemma strip_idempotent_witness :
  conforms scenario = true /\
  exists data' n,
    strip scenario = Ok (data', n) /\
    strip data' = Ok (data', n) /\
    n = with_geometry (features_of scenario) /\
    n = with_geometry (features_of data').
Proof.
  split; [reflexivity|]. apply (strip_idempotent scenario). reflexivity.
Defined.

(** What the loop body leaves of a feature. *)
Lemma blank_frame fd :
  exists fd',
    blank (PDict fd) = PDict fd' /\
    (Dict.mem "geometry" fd = false -> fd' = fd) /\
    Dict.keys fd' = Dict.keys fd /\
    (forall k, k <> "geometry" -> Dict.get k fd' = Dict.get k fd) /\
    others "geometry" fd' = others "geometry" fd.
Proof.
  simpl. destruct (Dict.mem "geometry" fd) eqn:Hm.
  - exists (Dict.set "geometry" PNone fd). repeat split.
    + done.
    + by apply DictFacts.keys_set.
    + intros k Hk. by apply DictFacts.get_set_ne.
    + apply others_set.
  - exists fd. by repeat split.
Qed.

(** C4: a feature without a [geometry] key is the same in the stripped
    document, and every feature keeps its keys, in order, and the value of
    every key other than [geometry]. *)
Theorem strip_frame data :
  conforms data = true ->
  exists data' n,
    strip data = Ok (data', n) /\
    forall i f,
      features_of data !! i = Some f ->
      exists fd fd',
        f = PDict fd /\
        features_of data' !! i = Some (PDict fd') /\
        (Dict.mem "geometry" fd = false -> fd' = fd) /\
        Dict.keys fd' = Dict.keys fd /\
        (forall k, k <> "geometry" -> Dict.get k fd' = Dict.get k fd) /\
        others "geometry" fd' = others "geometry" fd.
Proof.
  intros Hc. destruct (strip_conforms data Hc) as (d & Hd & Hs).
  eexists _, _. split; [exact Hs|]. intros i f Hi.
  pose proof (conforms_feature data i f Hc Hi) as Hf.
  destruct f as [| | | | | |fd]; try done.
  destruct (blank_frame fd) as (fd' & Hb & Hrest).
  exists fd, fd'. split; [done|]. split; [|exact Hrest].
  rewrite features_of_set.
  change (map blank (features_of data)) with (blank <$> features_of data).
  by rewrite list_lookup_fmap, Hi, <- Hb.
Qed.

Lemma strip_frame_witness :
  conforms scenario = true /\
  exists data' n,
    strip scenario = Ok (data', n) /\
    forall i f,
      features_of scenario !! i = Some f ->
      exists fd fd',
        f = PDict fd /\
        features_of data' !! i = Some (PDict fd') /\
        (Dict.mem "geometry" fd = false -> fd' = fd) /\
        Dict.keys fd' = Dict.keys fd /\
        (forall k, k <> "geometry" -> Dict.get k fd' = Dict.get k fd) /\
        others "geometry" fd' = others "geometry" fd.
Proof.
  split; [reflexivity|]. apply (strip_frame scenario). reflexivity.
Defined.

(** C5: a document without a [features] key is processed as one with no
    feature: the count is 0, and the key is added with an empty list. *)
Theorem strip_without_features d :
  Dict.get "features" d = None ->
  strip (PDict d) = Ok (PDict (d ++ [("features", PList [])]), 0).
Proof.
  intros Hget. rewrite strip_eq, Hget. simpl.
  by rewrite DictFacts.set_absent.
Qed.

Lemma strip_without_features_witness :
  Dict.get "features" [("type", PStr "FeatureCollection")] = None /\
  strip (PDict [("type", PStr "FeatureCollection")]) =
    Ok (PDict ([("type", PStr "FeatureCollection")]
               ++ [("features", PList [])]), 0).
Proof.
  split; [reflexivity|].
  apply (strip_without_features [("type", PStr "FeatureCollection")]).
  reflexivity.
Defined.

(** C6: on a document of the data model the loop does not raise: the
    whole of [strip] returns, every iteration returns, and an iteration on
    a feature without a [geometry] key changes neither the feature nor the
    count. *)
Theorem strip_never_raises data :
  conforms data = true ->
  (exists r, strip data = Ok r) /\
  forall i f n,
    features_of data !! i = Some f ->
    exists r,
      strip_feature f n = Ok r /\
      (has_geometry f = false -> r = (f, n)).
Proof.
  intros Hc. split.
  - destruct (strip_conforms data Hc) as (d & _ & Hs). eauto.
  - intros i f n Hi.
    pose proof (conforms_feature data i f Hc Hi) as Hf.
    rewrite strip_feature_eq, (is_dict_tolerated f Hf).
    eexists. split; [done|]. intros Hg. rewrite Hg.
    destruct f as [| | | | | |fd]; try done.
    simpl in *. by rewrite Hg.
Qed.

Lemma strip_never_raises_witness :
  conforms scenario = true /\
  (exists r, strip scenario = Ok r) /\
  forall i f n,
    features_of scenario !! i = Some f ->
    exists r,
      strip_feature f n = Ok r /\
      (has_geometry f = false -> r = (f, n)).
Proof.
  split; [reflexivity|]. apply (strip_never_raises scenario). reflexivity.
Defined.

(** C9: a feature that has a [geometry] key still has it in the stripped
    document, with the value [None]. *)
Theorem strip_keeps_geometry_key data :
  conforms data = true ->
  exists data' n,
    strip data = Ok (data', n) /\
    forall i fd,
      features_of data !! i = Some (PDict fd) ->
      Dict.mem "geometry" fd = true ->
      exists fd',
        features_of data' !! i = Some (PDict fd') /\
        Dict.mem "geometry" fd' = true /\
        Dict.get "geometry" fd' = Some PNone.
Proof.
  intros Hc. destruct (strip_conforms data Hc) as (d & Hd & Hs).
  eexists _, _. split; [exact Hs|]. intros i fd Hi Hm.
  exists (Dict.set "geometry" PNone fd).
  rewrite features_of_set.
  change (map blank (features_of data)) with (blank <$> features_of data).
  rewrite list_lookup_fmap, Hi. simpl. rewrite Hm.
  split; [done|]. split.
  - apply DictFacts.mem_set_eq.
  - apply DictFacts.get_set_eq.
Qed.

Lemma strip_keeps_geometry_key_witness :
  conforms scenario = true /\
  exists data' n,
    strip scenario = Ok (data', n) /\
    forall i fd,
      features_of scenario !! i = Some (PDict fd) ->
      Dict.mem "geometry" fd = true ->
      exists fd',
        features_of data' !! i = Some (PDict fd') /\
        Dict.mem "geometry" fd' = true /\
        Dict.get "geometry" fd' = Some PNone.
Proof.
  split; [reflexivity|].
  apply (strip_keeps_geometry_key scenario). reflexivity.
Defined.

(** C10: the stripped document has a [features] key; when the document
    had none the key is appended with an empty list; the other top-level
    items are the same, in the same order. *)
Theorem strip_defines_features data :
  conforms data = true ->
  exists d d' n,
    data = PDict d /\
    strip data = Ok (PDict d', n) /\
    Dict.mem "features" d' = true /\
    (Dict.get "features" d = None -> d' = d ++ [("features", PList [])]) /\
    (forall k, k <> "features" -> Dict.get k d' = Dict.get k d) /\
    others "features" d' = others "features" d.
Proof.
  intros Hc. destruct (strip_conforms data Hc) as (d & Hd & Hs).
  eexists d, _, _. split; [done|]. split; [exact Hs|].
  split; [apply DictFacts.mem_set_eq|]. split; [|split].
  - intros Hget. subst data. simpl. rewrite Hget. simpl.
    by apply DictFacts.set_absent.
  - intros k Hk. by apply DictFacts.get_set_ne.
  - apply others_set.
Qed.

Lemma strip_defines_features_witness :
  conforms (PDict [("type", PStr "FeatureCollection")]) = true /\
  exists d d' n,
    PDict [("type", PStr "FeatureCollection")] = PDict d /\
    strip (PDict [("type", PStr "FeatureCollection")]) = Ok (PDict d', n) /\
    Dict.mem "features" d' = true /\
    (Dict.get "features" d = None -> d' = d ++ [("features", PList [])]) /\
    (forall k, k <> "features" -> Dict.get k d' = Dict.get k d) /\
    others "features" d' = others "features" d.
Proof.
  split; [reflexivity|].
  apply (strip_defines_features (PDict [("type", PStr "FeatureCollection")])).
  reflexivity.
Defined.

(** ** The claims about the script *)

Section ScriptFacts.

Variable resolve : string -> string.
Variable json_load : string -> result pyval.
Variable json_dump : pyval -> string.

(** Choosing the input path writes no file. *)
Lemma input_path_files argv w r w1 :
  input_path resolve argv w = (r, w1) -> files w1 = files w.
Proof.
  unfold input_path.
  destruct (Nat.ltb 1 (length argv)).
  - destruct (py_index argv 1); intros [= <- <-]; done.
  - unfold mbind, script_bind, os_path_exists.
    destruct (bool_decide (is_Some (files w !! resolve default_path))); simpl.
    + intros [= <- <-]. done.
    + destruct (py_index argv 0); simpl; intros [= <- <-]; done.
Qed.

(** Lines 19-49 on an input that is there and loads. *)
Lemma process_writes file_path w text data data' n :
  files w !! resolve file_path = Some (File text) ->
  json_load text = Ok data ->
  strip data = Ok (data', n) ->
  files w !! resolve (output_file_path file_path) <> Some Directory ->
  process resolve json_load json_dump file_path w =
    (inl (Exit 0),
     World (<[resolve (output_file_path file_path) :=
                File (json_dump data')]> (files w))
           (stdout w ++
              ["Loading GeoJSON file: " +:+ file_path;
               "Removing coordinates from " +:+ pretty n +:+ " features...";
               "GeoJSON without coordinates saved to: "
                 +:+ output_file_path file_path])).
Proof.
  intros Hfile Hload Hstrip Hout.
  unfold process, mbind, script_bind, os_path_exists, read_text, write_text,
    print, sys_exit, mret, script_ret.
  rewrite bool_decide_eq_true_2 by (rewrite Hfile; eauto).
  simpl. rewrite Hfile, Hload. simpl. rewrite Hstrip. simpl.
  destruct (files w !! resolve (output_file_path file_path)) as [[]|] eqn:Ho;
    try done; cbn [files stdout]; by rewrite <- !app_assoc.
Qed.

(** C7: when the input loads and the loop completes, the process ends
    with status 0, and the file named [Cleaned_Demographics_Data.geojson]
    in the directory of the input file ([.] when the input path has none)
    then holds the dump of the stripped document, whatever it held
    before. *)
Theorem output_next_to_input_file argv w w1 file_path text data data' n :
  input_path resolve argv w = (inr file_path, w1) ->
  files w !! resolve file_path = Some (File text) ->
  json_load text = Ok data ->
  strip data = Ok (data', n) ->
  files w !! resolve (output_file_path file_path) <> Some Directory ->
  let d := Path.dirname file_path in
  let input_dir := if Path.nonempty d then d else "." in
  let out := Path.join input_dir "Cleaned_Demographics_Data.geojson" in
  exists w',
    run resolve json_load json_dump argv w = (Exit 0, w') /\
    files w' !! resolve out = Some (File (json_dump data')).
Proof.
  intros Hin Hfile Hload Hstrip Hout d input_dir out.
  pose proof (input_path_files _ _ _ _ Hin) as Hfiles.
  unfold run, main. unfold mbind at 1. unfold script_bind. rewrite Hin.
  erewrite process_writes; eauto; rewrite ?Hfiles; eauto.
  eexists. split; [done|]. cbn [files].
  apply lookup_insert_eq.
Qed.

(** C8: when the input file the script settles on is missing, the process
    prints a line that starts with [Error: ], ends with status 1, and
    writes no file. *)
Theorem missing_input_reported argv w :
  input_missing resolve argv w = true ->
  exists s w' line lines,
    run resolve json_load json_dump argv w = (s, w') /\
    exit_status s = 1%Z /\
    files w' = files w /\
    stdout w' = stdout w ++ line :: lines /\
    String.prefix "Error: " line = true.
Proof.
  unfold input_missing, run, main, input_path, process.
  destruct argv as [|prog [|file_path rest]]; simpl;
    intros Hmiss%bool_decide_eq_true_1.
  - unfold mbind, script_bind, os_path_exists. rewrite Hmiss. simpl.
    eexists _, _, _, _. repeat split; try done.
  - unfold mbind, script_bind, os_path_exists. rewrite Hmiss. simpl.
    eexists _, _, _, _. repeat split; try done.
    + cbn [stdout]. by rewrite <- app_assoc.
    + done.
  - unfold mbind, script_bind, os_path_exists. simpl. rewrite Hmiss. simpl.
    eexists _, _, _, _. repeat split; try done.
Qed.

End ScriptFacts.

Lemma output_next_to_input_file_witness :
  input_path toy_resolve toy_argv toy_world
    = (inr "data/in.geojson", toy_world) /\
  files toy_world !! toy_resolve "data/in.geojson" = Some (File "scenario") /\
  toy_load "scenario" = Ok scenario /\
  strip scenario = Ok (scenario_stripped, 1) /\
  files toy_world !! toy_resolve (output_file_path "data/in.geojson")
    <> Some Directory /\
  exists w',
    run toy_resolve toy_load toy_dump toy_argv toy_world = (Exit 0, w') /\
    files w' !! toy_resolve "data/Cleaned_Demographics_Data.geojson" =
      Some (File (toy_dump scenario_stripped)).
Proof.
  assert (Hout : files toy_world
                   !! toy_resolve (output_file_path "data/in.geojson")
                 <> Some Directory) by (vm_compute; discriminate).
  repeat (split; [first [reflexivity | exact Hout]|]).
  apply (output_next_to_input_file toy_resolve toy_load toy_dump toy_argv
           toy_world toy_world "data/in.geojson" "scenario" scenario
           scenario_stripped 1);
    first [reflexivity | exact Hout].
Defined.

Lemma missing_input_reported_witness :
  input_missing toy_resolve
    ["remove_coordinates.py"; "nowhere.geojson"] toy_world = true /\
  exists s w' line lines,
    run toy_resolve toy_load toy_dump
      ["remove_coordinates.py"; "nowhere.geojson"] toy_world = (s, w') /\
    exit_status s = 1%Z /\
    files w' = files toy_world /\
    stdout w' = stdout toy_world ++ line :: lines /\
    String.prefix "Error: " line = true.
Proof.
  split; [reflexivity|].
  apply (missing_input_reported toy_resolve toy_load toy_dump
           ["remove_coordinates.py"; "nowhere.geojson"] toy_world).
  reflexivity.
Defined.

Example run_toy :
  fst (run toy_resolve toy_load toy_dump toy_argv toy_world) = Exit 0 /\
  stdout (snd (run toy_resolve toy_load toy_dump toy_argv toy_world)) =
    ["Loading GeoJSON file: data/in.geojson";
     "Removing coordinates from 1 features...";
     "GeoJSON without coordinates saved to: data/Cleaned_Demographics_Data.geojson"].
Proof. split; reflexivity. Qed.

(** ** Other ways the process ends *)

Example run_missing_default :
  run toy_resolve toy_load toy_dump ["remove_coordinates.py"] toy_world =
    (Exit 1,
     World (files toy_world)
       ["Error: Please provide a GeoJSON file path";
        "Usage: python remove_coordinates.py data/Raw_Demographic_Data.geojson"]).
Proof. reflexivity. Qed.

Example run_not_json :
  fst (run toy_resolve toy_load toy_dump ["remove_coordinates.py"; "notes.txt"]
         (World {[ "notes.txt" := File "hello" ]} []))
  = Uncaught JSONDecodeError.
Proof. reflexivity. Qed.

Example run_on_directory :
  fst (run toy_resolve toy_load toy_dump ["remove_coordinates.py"; "data"]
         (World {[ "data" := Directory ]} []))
  = Uncaught IsADirectoryError.
Proof. reflexivity. Qed.

(** * Further properties of the loop *)

Lemma with_geometry_strs ks : with_geometry (map PStr ks) = 0.
Proof. unfold with_geometry. by induction ks. Qed.

(** What a completed pass did, on every document it completes on. *)
Lemma strip_ok_features data data' n :
  strip data = Ok (data', n) ->
  forallb tolerated (features_of data) = true /\
  features_of data' = map blank (features_of data) /\
  n = with_geometry (features_of data).
Proof.
  destruct data as [| | | | | |d]; try done.
  rewrite strip_eq. cbv zeta. unfold features_of.
  destruct (Dict.get "features" d) as [v|]; simpl.
  - destruct v as [| | | | s |l|fd]; simpl; try done.
    + destruct (forallb tolerated (map PStr (str_chars s))); [|done].
      intros [= <- <-]. rewrite DictFacts.get_set_eq.
      by rewrite with_geometry_strs.
    + destruct (forallb tolerated l); [|done].
      intros [= <- <-]. by rewrite DictFacts.get_set_eq.
    + destruct (forallb tolerated (map PStr (Dict.keys fd))); [|done].
      intros [= <- <-]. rewrite DictFacts.get_set_eq.
      by rewrite with_geometry_strs.
  - intros [= <- <-]. by rewrite DictFacts.get_set_eq.
Qed.

(** X1: after a completed pass no feature carries a geometry: in every
    feature of the result the [geometry] key is absent or holds [None]. *)
Theorem strip_leaves_no_geometry data data' n :
  strip data = Ok (data', n) ->
  forall i fd',
    features_of data' !! i = Some (PDict fd') ->
    Dict.get "geometry" fd' = None \/ Dict.get "geometry" fd' = Some PNone.
Proof.
  intros (_ & Hfs & _)%strip_ok_features i fd'. rewrite Hfs.
  change (map blank (features_of data)) with (blank <$> features_of data).
  rewrite list_lookup_fmap.
  destruct (features_of data !! i) as [f|]; simpl; [|done].
  destruct f as [| | | | | |fd]; simpl; try done.
  destruct (Dict.mem "geometry" fd) eqn:Hm; intros [= <-].
  - right. apply DictFacts.get_set_eq.
  - left. rewrite DictFacts.mem_get in Hm.
    destruct (Dict.get "geometry" fd); [|done].
    rewrite bool_decide_eq_true_2 in Hm; [done|eauto].
Qed.

Lemma strip_leaves_no_geometry_witness :
  strip scenario = Ok (scenario_stripped, 1) /\
  forall i fd',
    features_of scenario_stripped !! i = Some (PDict fd') ->
    Dict.get "geometry" fd' = None \/ Dict.get "geometry" fd' = Some PNone.
Proof.
  split; [reflexivity|].
  apply (strip_leaves_no_geometry scenario scenario_stripped 1). reflexivity.
Defined.

Lemma filter_all_length (P : pyval -> bool) fs :
  length (List.filter P fs) <= length fs /\
  (length (List.filter P fs) = length fs <-> forallb P fs = true).
Proof.
  induction fs as [|f fs [IHle IHeq]]; simpl; [done|].
  destruct (P f); simpl.
  - split; [lia|]. rewrite <- IHeq. lia.
  - split; [lia|]. split; [lia|done].
Qed.

(** X2: the count a completed pass returns is at most the number of
    features, and equals it exactly when every feature has a [geometry]
    key. *)
Theorem strip_count_bound data data' n :
  strip data = Ok (data', n) ->
  n <= length (features_of data) /\
  (n = length (features_of data) <->
   forallb has_geometry (features_of data) = true).
Proof.
  intros (_ & _ & ->)%strip_ok_features. apply filter_all_length.
Qed.

Lemma strip_count_bound_witness :
  strip scenario = Ok (scenario_stripped, 1) /\
  1 <= length (features_of scenario) /\
  (1 = length (features_of scenario) <->
   forallb has_geometry (features_of scenario) = true).
Proof.
  split; [reflexivity|].
  apply (strip_count_bound scenario scenario_stripped 1). reflexivity.
Defined.

Lemma forallb_is_dict_blank fs :
  forallb is_dict (map blank fs) = forallb is_dict fs.
Proof.
  induction fs as [|f fs IH]; simpl; [done|]. rewrite IH. f_equal.
  destruct f as [| | | | | |fd]; simpl; try done.
  by destruct (Dict.mem "geometry" fd).
Qed.

(** X3: the documents of the data model are closed under the pass: the
    result of stripping one is again one, so the pass can be repeated. *)
Theorem strip_preserves_conforms data :
  conforms data = true ->
  exists data' n, strip data = Ok (data', n) /\ conforms data' = true.
Proof.
  intros Hc. destruct (strip_conforms data Hc) as (d & -> & Hs).
  eexists _, _. split; [exact Hs|]. simpl in *.
  rewrite DictFacts.get_set_eq, forallb_is_dict_blank.
  by destruct (Dict.get "features" d) as [[| | | | | fs |]|].
Qed.

Lemma strip_preserves_conforms_witness :
  conforms scenario = true /\
  exists data' n, strip scenario = Ok (data', n) /\ conforms data' = true.
Proof.
  split; [reflexivity|]. apply (strip_preserves_conforms scenario). reflexivity.
Defined.

(** X4: the pass raises two exceptions only: [AttributeError] when the
    document is not a dict, [TypeError] when it is one. *)
Theorem strip_raises data e :
  strip data = Raise e ->
  e = (if is_dict data then TypeError else AttributeError).
Proof.
  destruct data as [| | | | | |d]; simpl; try by intros [= <-].
  rewrite strip_eq. cbv zeta.
  destruct (default (PList []) (Dict.get "features" d)) as [| | | | s |l|fd];
    simpl; try by intros [= <-].
  - by destruct (forallb tolerated (map PStr (str_chars s))); [|intros [= <-]].
  - by destruct (forallb tolerated l); [|intros [= <-]].
  - by destruct (forallb tolerated (map PStr (Dict.keys fd))); [|intros [= <-]].
Qed.

Lemma strip_raises_witness :
  strip (PDict [("features", PList [PInt 3])]) = Raise TypeError /\
  TypeError =
    (if is_dict (PDict [("features", PList [PInt 3])])
     then TypeError else AttributeError).
Proof.
  split; [reflexivity|].
  apply (strip_raises (PDict [("features", PList [PInt 3])]) TypeError).
  reflexivity.
Defined.

Lemma forallb_tolerated_scalar fs :
  existsb is_scalar fs = true -> forallb tolerated fs = false.
Proof.
  induction fs as [|f fs IH]; simpl; [done|].
  destruct f; simpl; try done; intros H; rewrite ?IH; try done;
    by rewrite ?andb_false_r.
Qed.

(** X5: a [features] entry that is [None], a bool or a number, or a list
    with such an element, makes the pass raise [TypeError]: only a missing
    key is read as no features. *)
Theorem strip_scalar_raises d v :
  Dict.get "features" d = Some v ->
  is_scalar v = true \/
    (exists fs, v = PList fs /\ existsb is_scalar fs = true) ->
  strip (PDict d) = Raise TypeError.
Proof.
  intros Hget Hv. rewrite strip_eq, Hget. simpl.
  destruct Hv as [Hv|(fs & -> & Hfs)].
  - by destruct v.
  - simpl. by rewrite forallb_tolerated_scalar.
Qed.

Lemma strip_scalar_raises_witness :
  Dict.get "features" [("features", PList [PDict []; PNone])]
    = Some (PList [PDict []; PNone]) /\
  strip (PDict [("features", PList [PDict []; PNone])]) = Raise TypeError.
Proof.
  split; [reflexivity|].
  apply (strip_scalar_raises [("features", PList [PDict []; PNone])]
           (PList [PDict []; PNone])); [reflexivity|].
  right. exists [PDict []; PNone]. split; reflexivity.
Defined.

(** * Further properties of the script *)

Section RunFacts.

Variable resolve : string -> string.
Variable json_load : string -> result pyval.
Variable json_dump : pyval -> string.

(** Lines 6-16 on every argument list and world. *)
Lemma input_path_eq argv w :
  input_path resolve argv w =
    match argv with
    | _ :: file_path :: _ => (inr file_path, w)
    | _ =>
        match files w !! resolve default_path, argv with
        | Some _, _ =>
            (inr default_path,
             World (files w)
               (stdout w ++ ["Using default file: " +:+ default_path]))
        | None, prog :: _ =>
            (inl (Exit 1),
             World (files w)
               (stdout w ++
                  ["Error: Please provide a GeoJSON file path";
                   "Usage: python " +:+ prog
                     +:+ " data/Raw_Demographic_Data.geojson"]))
        | None, [] =>
            (inl (Uncaught IndexError),
             World (files w)
               (stdout w ++ ["Error: Please provide a GeoJSON file path"]))
        end
    end.
Proof.
  unfold input_path, mbind, script_bind, os_path_exists.
  destruct argv as [|prog [|file_path rest]]; simpl; [| |done];
    destruct (files w !! resolve default_path) as [nd|]; simpl; try done.
  all: try (rewrite bool_decide_eq_true_2 by eauto; done).
  cbn [files stdout]. by rewrite <- app_assoc.
Qed.

(** Lines 19-49 on every path and world. *)
Lemma process_eq file_path w :
  process resolve json_load json_dump file_path w =
    let loading :=
      World (files w) (stdout w ++ ["Loading GeoJSON file: " +:+ file_path]) in
    match files w !! resolve file_path with
    | None =>
        (inl (Exit 1),
         World (files w)
           (stdout w ++ ["Error: File not found: " +:+ file_path]))
    | Some Directory => (inl (Uncaught IsADirectoryError), loading)
    | Some (File text) =>
        match json_load text with
        | Raise e => (inl (Uncaught e), loading)
        | Ok data =>
            match strip data with
            | Raise e => (inl (Uncaught e), loading)
            | Ok (data', n) =>
                let removing :=
                  stdout w ++
                    ["Loading GeoJSON file: " +:+ file_path;
                     "Removing coordinates from " +:+ pretty n
                       +:+ " features..."] in
                match files w !! resolve (output_file_path file_path) with
                | Some Directory =>
                    (inl (Uncaught IsADirectoryError),
                     World (files w) removing)
                | _ =>
                    (inl (Exit 0),
                     World (<[resolve (output_file_path file_path) :=
                                File (json_dump data')]> (files w))
                       (removing ++
                          ["GeoJSON without coordinates saved to: "
                             +:+ output_file_path file_path]))
                end
            end
        end
    end.
Proof.
  unfold process, mbind, script_bind, os_path_exists, read_text, write_text,
    print, sys_exit, mret, script_ret.
  destruct (files w !! resolve file_path) as [[text|]|] eqn:Hfile; simpl;
    rewrite ?Hfile; try done.
  destruct (json_load text) as [data|]; simpl; [|done].
  destruct (strip data) as [[data' n]|e]; simpl; [|done].
  destruct (files w !! resolve (output_file_path file_path)) as [[]|];
    cbn [files stdout]; by rewrite <- ?app_assoc.
Qed.

(** The whole run in terms of the two parts. *)
Lemma run_eq argv w :
  run resolve json_load json_dump argv w =
    match input_path resolve argv w with
    | (inl s, w1) => (s, w1)
    | (inr file_path, w1) =>
        match process resolve json_load json_dump file_path w1 with
        | (inl s, w') => (s, w')
        | (inr _, w') => (Exit 0, w')
        end
    end.
Proof.
  unfold run, main, mbind, script_bind.
  by destruct (input_path resolve argv w) as [[s|file_path] w1].
Qed.

(** Case analysis of a run along the branches of the script. *)
Ltac run_cases argv w :=
  rewrite run_eq, input_path_eq;
  destruct argv as [|? [|? ?]];
  try destruct (files w !! resolve default_path) as [?|] eqn:?;
  rewrite ?process_eq; cbv zeta; cbn [files stdout];
  repeat case_match; simplify_eq; cbn [fst snd files stdout exit_status].

(** X6: the process ends with status 0 or 1, and whenever it does not end
    with [sys.exit(0)] the file system is as it was: no failure leaves a
    file behind. *)
Theorem run_failure_writes_nothing argv w :
  fst (run resolve json_load json_dump argv w) = Exit 0 \/
  (exit_status (fst (run resolve json_load json_dump argv w)) = 1%Z /\
   files (snd (run resolve json_load json_dump argv w)) = files w).
Proof. run_cases argv w; auto. Qed.

(** X7: status 0 is earned: when the process ends with [sys.exit(0)], the
    input path named a file, its text loaded, the loop completed, and the
    file the output path names holds the dump of the stripped document. *)
Theorem run_success_sound argv w w' :
  run resolve json_load json_dump argv w = (Exit 0, w') ->
  exists w1 file_path text data data' n,
    input_path resolve argv w = (inr file_path, w1) /\
    files w !! resolve file_path = Some (File text) /\
    json_load text = Ok data /\
    strip data = Ok (data', n) /\
    files w' !! resolve (output_file_path file_path)
      = Some (File (json_dump data')).
Proof.
  rewrite run_eq.
  destruct (input_path resolve argv w) as [[s|file_path] w1] eqn:Hin.
  { intros [= ? ?]. subst s w1. exfalso. revert Hin.
    rewrite input_path_eq. repeat case_match; congruence. }
  pose proof (input_path_files _ _ _ _ _ Hin) as Hfiles.
  rewrite process_eq. cbv zeta. rewrite Hfiles.
  repeat case_match; intros ?; simplify_eq;
    eexists _, _, _, _, _, _; cbn [files];
    rewrite ?Hfiles, ?lookup_insert_eq; eauto 10.
Qed.

(** X8: every run prints at least one line, and only adds to what was
    printed before. *)
Theorem run_prints argv w :
  exists line lines,
    stdout (snd (run resolve json_load json_dump argv w))
      = stdout w ++ line :: lines.
Proof.
  run_cases argv w; rewrite <- ?app_assoc; simpl; eauto.
Qed.

(** X9: when a path is given, the run depends on nothing else of the
    command line: neither the program name nor further arguments. *)
Theorem run_ignores_other_arguments prog prog' file_path rest rest' w :
  run resolve json_load json_dump (prog :: file_path :: rest) w =
  run resolve json_load json_dump (prog' :: file_path :: rest') w.
Proof. by rewrite !run_eq, !input_path_eq. Qed.

(** X10: without a path on the command line, when the default file is
    there, the run is the run on the default path after a line that says
    so. *)
Theorem run_default_when_no_argument prog w :
  is_Some (files w !! resolve default_path) ->
  run resolve json_load json_dump [prog] w =
  run resolve json_load json_dump [prog; default_path]
    (World (files w)
       (stdout w ++ ["Using default file: data/Raw_Demographic_Data.geojson"])).
Proof.
  intros [nd Hnd]. rewrite !run_eq, !input_path_eq. by rewrite Hnd.
Qed.

(** X11: whatever [json.load] raises on the input file ends the process
    with that exception uncaught, after the loading line and before any
    file is written. *)
Theorem run_load_failure_uncaught prog file_path rest w text e :
  files w !! resolve file_path = Some (File text) ->
  json_load text = Raise e ->
  run resolve json_load json_dump (prog :: file_path :: rest) w =
    (Uncaught e,
     World (files w) (stdout w ++ ["Loading GeoJSON file: " +:+ file_path])).
Proof.
  intros Hfile Hload. rewrite run_eq, input_path_eq, process_eq.
  cbv zeta. by rewrite Hfile, Hload.
Qed.

(** X12: a document the loop raises on ends the process with that
    exception uncaught, after the loading line and before any file is
    written. *)
Theorem run_malformed_uncaught prog file_path rest w text data e :
  files w !! resolve file_path = Some (File text) ->
  json_load text = Ok data ->
  strip data = Raise e ->
  run resolve json_load json_dump (prog :: file_path :: rest) w =
    (Uncaught e,
     World (files w) (stdout w ++ ["Loading GeoJSON file: " +:+ file_path])).
Proof.
  intros Hfile Hload Hstrip. rewrite run_eq, input_path_eq, process_eq.
  cbv zeta. by rewrite Hfile, Hload, Hstrip.
Qed.

(** X13: the existence check lets a directory through: the process then
    ends with an uncaught [IsADirectoryError] when it opens the path. *)
Theorem run_directory_uncaught prog file_path rest w :
  files w !! resolve file_path = Some Directory ->
  run resolve json_load json_dump (prog :: file_path :: rest) w =
    (Uncaught IsADirectoryError,
     World (files w) (stdout w ++ ["Loading GeoJSON file: " +:+ file_path])).
Proof.
  intros Hfile. rewrite run_eq, input_path_eq, process_eq.
  cbv zeta. by rewrite Hfile.
Qed.

(** X14: a run changes no file other than the one its output path names;
    in particular the input file is as before unless the output path
    names it too. *)
Theorem run_touches_only_output argv w w1 file_path name :
  input_path resolve argv w = (inr file_path, w1) ->
  name <> resolve (output_file_path file_path) ->
  files (snd (run resolve json_load json_dump argv w)) !! name
    = files w !! name.
Proof.
  intros Hin Hp. pose proof (input_path_files _ _ _ _ _ Hin) as Hfiles.
  rewrite run_eq, Hin, process_eq. cbv zeta. rewrite Hfiles.
  repeat case_match; simplify_eq; cbn [snd files]; rewrite ?Hfiles;
    try done; by rewrite lookup_insert_ne.
Qed.


(** X16: when the output path names a directory the process ends with an
    uncaught [IsADirectoryError] once the loop is done, and writes
    nothing. *)
Theorem run_output_is_directory prog file_path rest w text data data' n :
  files w !! resolve file_path = Some (File text) ->
  json_load text = Ok data ->
  strip data = Ok (data', n) ->
  files w !! resolve (output_file_path file_path) = Some Directory ->
  fst (run resolve json_load json_dump (prog :: file_path :: rest) w)
    = Uncaught IsADirectoryError /\
  files (snd (run resolve json_load json_dump (prog :: file_path :: rest) w))
    = files w.
Proof.
  intros Hfile Hload Hstrip Hout. rewrite run_eq, input_path_eq, process_eq.
  cbv zeta. by rewrite Hfile, Hload, Hstrip, Hout.
Qed.

End RunFacts.

(** * The output path *)

Module PathFacts.
Import Path.

Lemma sep_char c : is_sep c = true -> c = "/"%char.
Proof. unfold is_sep. by intros ->%Ascii.eqb_eq. Qed.

Lemma nonempty_app a b : nonempty a = true -> nonempty (a +:+ b) = true.
Proof. by destruct a. Qed.

Lemma app_cons c a b : String c a +:+ b = String c (a +:+ b).
Proof. done. Qed.

Lemma upto_last_sep_cons c p :
  upto_last_sep (String c p) =
    match upto_last_sep p with
    | EmptyString => if is_sep c then String c EmptyString else EmptyString
    | head => String c head
    end.
Proof. done. Qed.

Lemma rstrip_sep_cons c s :
  rstrip_sep (String c s) =
    match rstrip_sep s with
    | EmptyString => if is_sep c then EmptyString else String c EmptyString
    | r => String c r
    end.
Proof. done. Qed.

Lemma ends_with_sep_cons c c' s :
  ends_with_sep (String c (String c' s)) = ends_with_sep (String c' s).
Proof. done. Qed.

(** Behind a prefix that ends with a separator, a name without one is
    cut off whole. *)
Lemma upto_last_sep_app x name :
  ends_with_sep x = true -> upto_last_sep name = "" ->
  upto_last_sep (x +:+ name) = x.
Proof.
  intros Hx Hname. induction x as [|c x IH]; [done|].
  rewrite app_cons, upto_last_sep_cons. destruct x as [|c' x'].
  - simpl in Hx. change ("" +:+ name) with name. by rewrite Hname, Hx.
  - rewrite ends_with_sep_cons in Hx. by rewrite IH.
Qed.

Lemma ends_with_sep_snoc x : ends_with_sep (x +:+ "/") = true.
Proof.
  induction x as [|c x IH]; [done|]. destruct x as [|c' x']; [done|].
  by rewrite !app_cons, ends_with_sep_cons, <- app_cons.
Qed.

Lemma all_sep_ends x :
  nonempty x = true -> all_sep x = true -> ends_with_sep x = true.
Proof.
  induction x as [|c x IH]; [done|]. intros _ [Hc Hx]%andb_prop.
  destruct x as [|c' x']; [done|]. by apply IH.
Qed.

Lemma all_sep_snoc x : all_sep (x +:+ "/") = all_sep x.
Proof. induction x as [|c x IH]; [done|]. simpl. by rewrite IH. Qed.

Lemma rstrip_sep_snoc x :
  nonempty x = true -> ends_with_sep x = false -> rstrip_sep (x +:+ "/") = x.
Proof.
  induction x as [|c x IH]; [done|]. intros _ Hx.
  rewrite app_cons, rstrip_sep_cons. destruct x as [|c' x'].
  - simpl in *. by rewrite Hx.
  - rewrite ends_with_sep_cons in Hx. by rewrite IH.
Qed.

Lemma rstrip_sep_ends s : ends_with_sep (rstrip_sep s) = false.
Proof.
  induction s as [|c s IH]; [done|]. simpl.
  destruct (rstrip_sep s) as [|c' r] eqn:Hr.
  - by destruct (is_sep c) eqn:Hc; simpl.
  - done.
Qed.

Lemma rstrip_sep_nonempty s :
  all_sep s = false -> nonempty (rstrip_sep s) = true.
Proof.
  induction s as [|c s IH]; [done|]. simpl.
  destruct (is_sep c); simpl; intros Hs.
  - by destruct (rstrip_sep s); [discriminate (IH Hs)|].
  - by destruct (rstrip_sep s).
Qed.

Lemma tidy_input_dir p :
  tidy (if nonempty (dirname p) then dirname p else ".").
Proof.
  unfold tidy, dirname. set (head := upto_last_sep p).
  destruct (nonempty head) eqn:Hne; simpl.
  - destruct (all_sep head) eqn:Hall; simpl.
    + rewrite Hne. by split.
    + rewrite (rstrip_sep_nonempty head Hall). split.
      * by apply rstrip_sep_nonempty.
      * by rewrite rstrip_sep_ends.
  - rewrite Hne. by split.
Qed.

Lemma str_app_assoc a b c : (a +:+ b) +:+ c = a +:+ b +:+ c.
Proof. induction a as [|x a IH]; [done|]. by rewrite !app_cons, IH. Qed.

(** [join] puts the name behind a prefix that ends with a separator. *)
Lemma join_split dir name :
  tidy dir -> plain_name name ->
  join dir name =
    (if ends_with_sep dir then dir else dir +:+ "/") +:+ name.
Proof.
  intros [Hne _] [_ Hpre]. unfold join. rewrite Hpre, Hne. simpl.
  destruct (ends_with_sep dir); [done|]. by rewrite str_app_assoc.
Qed.

Lemma dirname_join dir name :
  tidy dir -> plain_name name -> dirname (join dir name) = dir.
Proof.
  intros Hdir Hname. rewrite join_split by done.
  destruct Hdir as [Hne Hends], Hname as [Hname _]. unfold dirname.
  destruct (ends_with_sep dir) eqn:He.
  - rewrite upto_last_sep_app by done. by rewrite Hne, Hends.
  - rewrite upto_last_sep_app by (done || apply ends_with_sep_snoc).
    rewrite nonempty_app by done. rewrite all_sep_snoc.
    destruct (all_sep dir) eqn:Hall.
    + by rewrite all_sep_ends in He.
    + simpl. by apply rstrip_sep_snoc.
Qed.

Lemma ends_with_sep_split x :
  ends_with_sep x = true -> exists pre, x = pre +:+ "/".
Proof.
  induction x as [|c x IH]; [done|]. destruct x as [|c' x'].
  - intros ->%sep_char. by exists "".
  - rewrite ends_with_sep_cons. intros [pre Hpre]%IH.
    exists (String c pre). by rewrite app_cons, <- Hpre.
Qed.

Lemma plain_output_name : plain_name output_name.
Proof. by split. Qed.

Lemma dirname_output file_path :
  dirname (output_file_path file_path) =
    (if nonempty (dirname file_path) then dirname file_path else ".").
Proof.
  unfold output_file_path. cbv zeta.
  apply dirname_join; [apply tidy_input_dir | apply plain_output_name].
Qed.

Lemma output_path_fixed file_path :
  output_file_path (output_file_path file_path) = output_file_path file_path.
Proof.
  unfold output_file_path at 1. cbv zeta. rewrite dirname_output.
  by destruct (tidy_input_dir file_path) as [-> _].
Qed.

End PathFacts.

(** X17: the output file lies in the directory of the input file:
    [os.path.dirname] of the output path is that directory, [.] when the
    input path has none. *)
Theorem output_dirname file_path :
  Path.dirname (output_file_path file_path) =
    (if Path.nonempty (Path.dirname file_path)
     then Path.dirname file_path else ".").
Proof. apply PathFacts.dirname_output. Qed.

(** X18: the output path of the output path is the output path itself:
    given its own result, the script writes it in place. *)
Theorem output_file_path_idempotent file_path :
  output_file_path (output_file_path file_path) = output_file_path file_path.
Proof.
  apply PathFacts.output_path_fixed.
Qed.

(** X19: the output path always has a directory part and the fixed file
    name: it is some prefix, a separator, and
    [Cleaned_Demographics_Data.geojson]. *)
Theorem output_file_path_shape file_path :
  exists pre,
    output_file_path file_path
      = pre +:+ "/" +:+ "Cleaned_Demographics_Data.geojson".
Proof.
  unfold output_file_path. cbv zeta.
  rewrite PathFacts.join_split
    by (apply PathFacts.tidy_input_dir || apply PathFacts.plain_output_name).
  destruct (Path.ends_with_sep _) eqn:He.
  - destruct (PathFacts.ends_with_sep_split _ He) as [pre ->].
    exists pre. by rewrite PathFacts.str_app_assoc.
  - eexists. by rewrite PathFacts.str_app_assoc.
Qed.

(** X20: run again on the file it has just written, the script reads it,
    counts the same features and writes the same file: the file system is
    as the first run left it.  [json.load] is taken to read back what
    [json.dump] wrote for the stripped document. *)
Theorem rerun_on_output resolve json_load json_dump
    prog rest prog' rest' file_path w text data data' n :
  files w !! resolve file_path = Some (File text) ->
  json_load text = Ok data ->
  strip data = Ok (data', n) ->
  files w !! resolve (output_file_path file_path) <> Some Directory ->
  json_load (json_dump data') = Ok data' ->
  exists w' w'',
    run resolve json_load json_dump (prog :: file_path :: rest) w
      = (Exit 0, w') /\
    run resolve json_load json_dump
      (prog' :: output_file_path file_path :: rest') w'
      = (Exit 0, w'') /\
    files w'' = files w' /\
    files w' !! resolve (output_file_path file_path)
      = Some (File (json_dump data')).
Proof.
  intros Hfile Hload Hstrip Hout Hback.
  pose proof (strip_again _ _ _ Hstrip) as Hagain.
  assert (Hfirst : exists out,
    run resolve json_load json_dump (prog :: file_path :: rest) w =
      (Exit 0,
       World (<[resolve (output_file_path file_path) :=
                  File (json_dump data')]> (files w))
         out)).
  { rewrite run_eq, input_path_eq, process_eq. cbv zeta.
    rewrite Hfile, Hload, Hstrip.
    destruct (files w !! resolve (output_file_path file_path)) as [[]|];
      try done; eauto. }
  destruct Hfirst as [out Hfirst]. rewrite Hfirst.
  eexists _, _. split; [done|].
  rewrite run_eq, input_path_eq, process_eq. cbv zeta. cbn [files].
  rewrite lookup_insert_eq, Hback, Hagain, PathFacts.output_path_fixed.
  rewrite lookup_insert_eq. split; [done|]. cbn [files].
  split; [apply insert_insert_eq | done].
Qed.

Lemma rerun_on_output_witness :
  files toy_world !! toy_resolve "data/in.geojson" = Some (File "scenario") /\
  echo_load "scenario" = Ok scenario /\
  strip scenario = Ok (scenario_stripped, 1) /\
  files toy_world !! toy_resolve (output_file_path "data/in.geojson")
    <> Some Directory /\
  echo_load (echo_dump scenario_stripped) = Ok scenario_stripped /\
  exists w' w'',
    run toy_resolve echo_load echo_dump
      ["remove_coordinates.py"; "data/in.geojson"] toy_world = (Exit 0, w') /\
    run toy_resolve echo_load echo_dump
      ["remove_coordinates.py"; output_file_path "data/in.geojson"] w'
      = (Exit 0, w'') /\
    files w'' = files w' /\
    files w' !! toy_resolve (output_file_path "data/in.geojson")
      = Some (File (echo_dump scenario_stripped)).
Proof.
  assert (Hout : files toy_world
                   !! toy_resolve (output_file_path "data/in.geojson")
                 <> Some Directory) by (vm_compute; discriminate).
  repeat (split; [first [reflexivity | exact Hout]|]).
  apply (rerun_on_output toy_resolve echo_load echo_dump
           "remove_coordinates.py" [] "remove_coordinates.py" []
           "data/in.geojson" toy_world "scenario" scenario
           scenario_stripped 1);
    first [reflexivity | exact Hout].
Defined.

(** Witnesses of the properties of the script. *)

Lemma run_success_sound_witness :
  run toy_resolve toy_load toy_dump toy_argv toy_world =
    (Exit 0, snd (run toy_resolve toy_load toy_dump toy_argv toy_world)) /\
  exists w1 file_path text data data' n,
    input_path toy_resolve toy_argv toy_world = (inr file_path, w1) /\
    files toy_world !! toy_resolve file_path = Some (File text) /\
    toy_load text = Ok data /\
    strip data = Ok (data', n) /\
    files (snd (run toy_resolve toy_load toy_dump toy_argv toy_world))
      !! toy_resolve (output_file_path file_path)
      = Some (File (toy_dump data')).
Proof.
  split; [reflexivity|].
  apply (run_success_sound toy_resolve toy_load toy_dump toy_argv toy_world
           (snd (run toy_resolve toy_load toy_dump toy_argv toy_world))).
  reflexivity.
Defined.

Lemma run_default_when_no_argument_witness :
  is_Some (files (World {[ default_path := File "scenario" ]} [])
             !! toy_resolve default_path) /\
  run toy_resolve toy_load toy_dump ["remove_coordinates.py"]
    (World {[ default_path := File "scenario" ]} []) =
  run toy_resolve toy_load toy_dump ["remove_coordinates.py"; default_path]
    (World {[ default_path := File "scenario" ]}
       ([] ++ ["Using default file: data/Raw_Demographic_Data.geojson"])).
Proof.
  assert (Hd : is_Some (files (World {[ default_path := File "scenario" ]} [])
                          !! toy_resolve default_path))
    by (exists (File "scenario"); reflexivity).
  split; [exact Hd|].
  exact (run_default_when_no_argument toy_resolve toy_load toy_dump
           "remove_coordinates.py"
           (World {[ default_path := File "scenario" ]} []) Hd).
Defined.

Lemma run_load_failure_uncaught_witness :
  files (World {[ "notes.txt" := File "hello" ]} [])
    !! toy_resolve "notes.txt" = Some (File "hello") /\
  toy_load "hello" = Raise JSONDecodeError /\
  run toy_resolve toy_load toy_dump ["remove_coordinates.py"; "notes.txt"]
    (World {[ "notes.txt" := File "hello" ]} []) =
    (Uncaught JSONDecodeError,
     World {[ "notes.txt" := File "hello" ]}
       ([] ++ ["Loading GeoJSON file: " +:+ "notes.txt"])).
Proof.
  split; [reflexivity|]. split; [reflexivity|].
  exact (run_load_failure_uncaught toy_resolve toy_load toy_dump
           "remove_coordinates.py" "notes.txt" []
           (World {[ "notes.txt" := File "hello" ]} [])
           "hello" JSONDecodeError eq_refl eq_refl).
Defined.

Lemma run_malformed_uncaught_witness :
  files (World {[ "bad.json" := File "bad" ]} [])
    !! toy_resolve "bad.json" = Some (File "bad") /\
  strip (PList []) = Raise AttributeError /\
  run toy_resolve (fun _ => Ok (PList [])) toy_dump
    ["remove_coordinates.py"; "bad.json"]
    (World {[ "bad.json" := File "bad" ]} []) =
    (Uncaught AttributeError,
     World {[ "bad.json" := File "bad" ]}
       ([] ++ ["Loading GeoJSON file: " +:+ "bad.json"])).
Proof.
  split; [reflexivity|]. split; [reflexivity|].
  exact (run_malformed_uncaught toy_resolve (fun _ => Ok (PList [])) toy_dump
           "remove_coordinates.py" "bad.json" []
           (World {[ "bad.json" := File "bad" ]} []) "bad" (PList [])
           AttributeError eq_refl eq_refl eq_refl).
Defined.

Lemma run_directory_uncaught_witness :
  files (World {[ "data" := Directory ]} []) !! toy_resolve "data"
    = Some Directory /\
  run toy_resolve toy_load toy_dump ["remove_coordinates.py"; "data"]
    (World {[ "data" := Directory ]} []) =
    (Uncaught IsADirectoryError,
     World {[ "data" := Directory ]}
       ([] ++ ["Loading GeoJSON file: " +:+ "data"])).
Proof.
  split; [reflexivity|].
  exact (run_directory_uncaught toy_resolve toy_load toy_dump
           "remove_coordinates.py" "data" []
           (World {[ "data" := Directory ]} []) eq_refl).
Defined.

Lemma run_touches_only_output_witness :
  input_path toy_resolve toy_argv toy_world
    = (inr "data/in.geojson", toy_world) /\
  toy_resolve "data/in.geojson"
    <> toy_resolve (output_file_path "data/in.geojson") /\
  files (snd (run toy_resolve toy_load toy_dump toy_argv toy_world))
    !! toy_resolve "data/in.geojson"
    = files toy_world !! toy_resolve "data/in.geojson".
Proof.
  assert (Hne : toy_resolve "data/in.geojson"
                <> toy_resolve (output_file_path "data/in.geojson"))
    by (vm_compute; discriminate).
  split; [reflexivity|]. split; [exact Hne|].
  apply (run_touches_only_output toy_resolve toy_load toy_dump toy_argv
           toy_world toy_world "data/in.geojson"
           (toy_resolve "data/in.geojson"));
    [reflexivity | exact Hne].
Defined.


Lemma run_output_is_directory_witness :
  files (World {[ "in.geojson" := File "scenario";
                  "Cleaned_Demographics_Data.geojson" := Directory ]} [])
    !! toy_resolve "in.geojson" = Some (File "scenario") /\
  toy_load "scenario" = Ok scenario /\
  strip scenario = Ok (scenario_stripped, 1) /\
  files (World {[ "in.geojson" := File "scenario";
                  "Cleaned_Demographics_Data.geojson" := Directory ]} [])
    !! toy_resolve (output_file_path "in.geojson") = Some Directory /\
  fst (run toy_resolve toy_load toy_dump
         ["remove_coordinates.py"; "in.geojson"]
         (World {[ "in.geojson" := File "scenario";
                   "Cleaned_Demographics_Data.geojson" := Directory ]} []))
    = Uncaught IsADirectoryError /\
  files (snd (run toy_resolve toy_load toy_dump
                ["remove_coordinates.py"; "in.geojson"]
                (World {[ "in.geojson" := File "scenario";
                          "Cleaned_Demographics_Data.geojson" := Directory ]}
                   [])))
    = {[ "in.geojson" := File "scenario";
         "Cleaned_Demographics_Data.geojson" := Directory ]}.
Proof.
  do 4 (split; [reflexivity|]).
  exact (run_output_is_directory toy_resolve toy_load toy_dump
           "remove_coordinates.py" "in.geojson" []
           (World {[ "in.geojson" := File "scenario";
                     "Cleaned_Demographics_Data.geojson" := Directory ]} [])
           "scenario" scenario scenario_stripped 1
           eq_refl eq_refl eq_refl eq_refl).
Defined.

(** ** Two spellings of one file *)

(** Given its own output file under the bare name, the script reads it and
    writes it back under [./]: one file, rewritten in place. *)
Example run_on_cleaned_file :
  run toy_resolve toy_load toy_dump
    ["remove_coordinates.py"; "Cleaned_Demographics_Data.geojson"]
    (World {[ "Cleaned_Demographics_Data.geojson" := File "scenario" ]} [])
  = (Exit 0,
     World {[ "Cleaned_Demographics_Data.geojson" :=
                File (toy_dump scenario_stripped) ]}
       ["Loading GeoJSON file: Cleaned_Demographics_Data.geojson";
        "Removing coordinates from 1 features...";
        "GeoJSON without coordinates saved to: ./Cleaned_Demographics_Data.geojson"]).
Proof. reflexivity. Qed.
